(** * Recipe Explorer API: the catalog, the query matcher and the handlers

    A shallow embedding of [recipe_app_backend/src/api/main.py] and the
    properties of its search, pagination and lookup logic.

    Modelling conventions.
    - A Python [str] is a [string]: the bytes of its UTF-8 encoding.  The
      catalog's titles and tags are plain ASCII; [str.lower] is modelled on
      ASCII letters and leaves every other byte alone.
    - A Python [int] is a [Z]; [len] returns a [Z].
    - [uuid.uuid4] is an external source of identifiers: the [k]-th call
      returns [uuid4 k], for an arbitrary [uuid4 : nat -> string].
    - The module globals [RECIPES] and [RECIPES_BY_ID] live in a [World]
      that the handlers read through a state monad; the world also records
      every call of [_match_query], so that "the matcher is not called" is
      a statement about the program.
    - The range checks that FastAPI performs on [page] and [page_size]
      ([ge=1], [le=100]) before the handler runs appear as hypotheses. *)

From Stdlib Require Import ZArith Ascii String List Lia.
From stdpp Require Import base tactics option list gmap strings fin_maps.

Local Open Scope string_scope.
Local Open Scope Z_scope.

(* ===================================================================== *)
(** ** Python strings                                                     *)
(* ===================================================================== *)

Module PyStr.

(** ['A' <= c <= 'Z'] *)
Definition is_upper (c : ascii) : bool :=
  let n := nat_of_ascii c in (Nat.leb 65 n && Nat.leb n 90)%bool.

(** ['a' <= c <= 'z'] *)
Definition is_lower (c : ascii) : bool :=
  let n := nat_of_ascii c in (Nat.leb 97 n && Nat.leb n 122)%bool.

Definition lower_char (c : ascii) : ascii :=
  if is_upper c then ascii_of_nat (nat_of_ascii c + 32) else c.

Definition upper_char (c : ascii) : ascii :=
  if is_lower c then ascii_of_nat (nat_of_ascii c - 32) else c.

(** [s.lower()] *)
Fixpoint lower (s : string) : string :=
  match s with
  | EmptyString => EmptyString
  | String c rest => String (lower_char c) (lower rest)
  end.

(** [hay.startswith(needle)] *)
Fixpoint startswith (hay needle : string) {struct needle} : bool :=
  match needle, hay with
  | EmptyString, _ => true
  | String _ _, EmptyString => false
  | String a needle', String b hay' =>
      if Ascii.eqb a b then startswith hay' needle' else false
  end.

(** [needle in hay]: [needle] occurs in [hay] at some offset. *)
Fixpoint contains (needle hay : string) : bool :=
  if startswith hay needle then true
  else match hay with
       | EmptyString => false
       | String _ hay' => contains needle hay'
       end.

(** Truthiness of a [str]: only the empty string is falsy. *)
Definition truthy (s : string) : bool :=
  match s with EmptyString => false | String _ _ => true end.

(** *** The vocabulary of the specification *)

(** Two characters are the same letter up to case. *)
Definition same_letter (a b : ascii) : Prop :=
  a = b
  \/ (is_upper a = true /\ b = lower_char a)
  \/ (is_upper b = true /\ a = lower_char b).

(** [s] and [t] differ only in letter case: same length, and the same
    letter up to case at every position. *)
Inductive case_variant : string -> string -> Prop :=
| cv_empty : case_variant EmptyString EmptyString
| cv_char a b s t :
    same_letter a b -> case_variant s t ->
    case_variant (String a s) (String b t).

(** [needle] is a substring of [hay]. *)
Definition substring_of (needle hay : string) : Prop :=
  exists pre post, hay = pre ++ needle ++ post.

(** [hay] contains [q] as a case-insensitive substring: some substring of
    [hay] is [q] up to letter case. *)
Definition contains_ci (hay q : string) : Prop :=
  exists u, substring_of u hay /\ case_variant u q.

End PyStr.

(* ===================================================================== *)
(** ** Python list slicing                                                *)
(* ===================================================================== *)

Module PyList.

(** [len(l)] *)
Definition len {A} (l : list A) : Z := Z.of_nat (length l).

(** How a slice bound is brought into [0 .. n]: a negative bound counts
    from the end, and everything is clamped. *)
Definition adjust_index (i n : Z) : Z :=
  if i <? 0 then Z.max (i + n) 0 else Z.min i n.

(** [l[start:stop]] *)
Definition slice {A} (l : list A) (start stop : Z) : list A :=
  let n := len l in
  let lo := adjust_index start n in
  let hi := adjust_index stop n in
  take (Z.to_nat (hi - lo)) (drop (Z.to_nat lo) l).

End PyList.

(* ===================================================================== *)
(** ** State-passing                                                      *)
(* ===================================================================== *)

(** A computation that threads a state of type [S]. *)
Definition State (S A : Type) : Type := S -> A * S.

Definition ret {S A} (a : A) : State S A := fun s => (a, s).

Definition bind {S A B} (m : State S A) (k : A -> State S B) : State S B :=
  fun s => let (a, s') := m s in k a s'.

Notation "x <- m ;; k" := (bind m (fun x => k))
  (at level 100, m at next level, right associativity).

(** The state is only read. *)
Definition gets {S A} (f : S -> A) : State S A := fun s => (f s, s).

(** Evaluate the elements of a list literal from left to right. *)
Fixpoint sequence {S A} (ms : list (State S A)) : State S (list A) :=
  match ms with
  | [] => ret []
  | m :: rest => a <- m ;; tl <- sequence rest ;; ret (a :: tl)
  end.

(* ===================================================================== *)
(** ** Data model                                                         *)
(* ===================================================================== *)

Record Ingredient := {
  name : string;
  quantity : option string
}.

Record Recipe := {
  id : string;
  title : string;
  description : string;
  image_url : option string;
  ingredients : list Ingredient;
  steps : list string;
  total_time_minutes : Z;
  servings : Z;
  tags : list string
}.

Record PaginatedRecipesResponse := {
  items : list Recipe;
  total : Z;
  page : Z;
  page_size : Z
}.

Record HTTPException := {
  status_code : Z;
  detail : string
}.

(** What a handler that may [raise] produces. *)
Inductive Outcome (A : Type) : Type :=
| Returns (a : A)
| Raises (e : HTTPException).
Arguments Returns {A} a.
Arguments Raises {A} e.

(* ===================================================================== *)
(** ** Building the catalog                                               *)
(* ===================================================================== *)

Section Catalog.

(** [uuid4 k] is the string of the UUID that the [k]-th call of
    [uuid.uuid4()] returns. *)
Variable uuid4 : nat -> string.

(** Computations that draw identifiers: the state counts the draws. *)
Definition Gen (A : Type) : Type := State nat A.

Definition _mk_id : Gen string := fun k => (uuid4 k, S k).

Definition seed_1 : Gen Recipe :=
  i <- _mk_id ;;
  ret {| id := i;
         title := "Classic Margherita Pizza";
         description := "A simple pizza topped with fresh tomatoes, mozzarella, and basil.";
         image_url := Some "https://images.unsplash.com/photo-1548365328-8b0b1a07e2fd?q=80&w=1200&auto=format&fit=crop";
         ingredients :=
           [ {| name := "Pizza dough"; quantity := Some "1 ball" |};
             {| name := "Tomato sauce"; quantity := Some "1/2 cup" |};
             {| name := "Fresh mozzarella"; quantity := Some "8 oz" |};
             {| name := "Fresh basil leaves"; quantity := Some "Handful" |};
             {| name := "Olive oil"; quantity := Some "1 tbsp" |} ];
         steps :=
           [ "Preheat oven to 500°F (260°C).";
             "Stretch the dough on a floured surface.";
             "Spread tomato sauce, add mozzarella slices, drizzle olive oil.";
             "Bake 8–10 minutes until crust is crisp.";
             "Top with basil and serve hot." ];
         total_time_minutes := 25;
         servings := 2;
         tags := [ "italian"; "vegetarian"; "pizza"; "quick" ] |}.

Definition seed_2 : Gen Recipe :=
  i <- _mk_id ;;
  ret {| id := i;
         title := "Spicy Thai Basil Chicken";
         description := "Savory and spicy stir-fried chicken with Thai basil.";
         image_url := Some "https://images.unsplash.com/photo-1604908554063-f3eccb6b4b91?q=80&w=1200&auto=format&fit=crop";
         ingredients :=
           [ {| name := "Chicken thighs"; quantity := Some "1 lb, chopped" |};
             {| name := "Garlic"; quantity := Some "4 cloves, minced" |};
             {| name := "Red chilies"; quantity := Some "2, sliced" |};
             {| name := "Oyster sauce"; quantity := Some "2 tbsp" |};
             {| name := "Fish sauce"; quantity := Some "1 tbsp" |};
             {| name := "Thai basil"; quantity := Some "1 cup" |} ];
         steps :=
           [ "Heat oil in a wok over high heat.";
             "Stir-fry garlic and chilies until fragrant.";
             "Add chicken and cook through.";
             "Stir in sauces and basil just before serving." ];
         total_time_minutes := 20;
         servings := 3;
         tags := [ "thai"; "spicy"; "stir-fry"; "chicken"; "quick" ] |}.

Definition seed_3 : Gen Recipe :=
  i <- _mk_id ;;
  ret {| id := i;
         title := "Blueberry Lemon Muffins";
         description := "Moist muffins bursting with blueberries and bright lemon zest.";
         image_url := Some "https://images.unsplash.com/photo-1519681393784-d120267933ba?q=80&w=1200&auto=format&fit=crop";
         ingredients :=
           [ {| name := "All-purpose flour"; quantity := Some "2 cups" |};
             {| name := "Sugar"; quantity := Some "3/4 cup" |};
             {| name := "Baking powder"; quantity := Some "2 tsp" |};
             {| name := "Milk"; quantity := Some "3/4 cup" |};
             {| name := "Egg"; quantity := Some "1" |};
             {| name := "Blueberries"; quantity := Some "1 1/2 cups" |};
             {| name := "Lemon zest"; quantity := Some "1 tbsp" |} ];
         steps :=
           [ "Preheat oven to 375°F (190°C).";
             "Whisk dry ingredients; combine wet ingredients.";
             "Fold wet into dry, add blueberries and lemon zest.";
             "Fill muffin tin and bake 18–22 minutes." ];
         total_time_minutes := 35;
         servings := 12;
         tags := [ "baking"; "dessert"; "blueberry"; "breakfast" ] |}.

Definition seed_4 : Gen Recipe :=
  i <- _mk_id ;;
  ret {| id := i;
         title := "Creamy Tomato Basil Soup";
         description := "Comforting soup made with tomatoes, cream, and fresh basil.";
         image_url := Some "https://images.unsplash.com/photo-1551183053-bf91a1d81141?q=80&w=1200&auto=format&fit=crop";
         ingredients :=
           [ {| name := "Canned tomatoes"; quantity := Some "28 oz" |};
             {| name := "Onion"; quantity := Some "1, chopped" |};
             {| name := "Garlic"; quantity := Some "3 cloves" |};
             {| name := "Heavy cream"; quantity := Some "1/2 cup" |};
             {| name := "Fresh basil"; quantity := Some "1/2 cup" |} ];
         steps :=
           [ "Sauté onion and garlic until soft.";
             "Add tomatoes and simmer 15 minutes.";
             "Blend smooth, stir in cream and basil.";
             "Season and serve warm." ];
         total_time_minutes := 30;
         servings := 4;
         tags := [ "soup"; "vegetarian"; "comfort" ] |}.

Definition seed_5 : Gen Recipe :=
  i <- _mk_id ;;
  ret {| id := i;
         title := "Grilled Salmon with Lemon Dill";
         description := "Flaky salmon fillets grilled with fresh lemon and dill.";
         image_url := Some "https://images.unsplash.com/photo-1617191518005-c13b39d3f5d3?q=80&w=1200&auto=format&fit=crop";
         ingredients :=
           [ {| name := "Salmon fillets"; quantity := Some "4" |};
             {| name := "Lemon"; quantity := Some "1, sliced" |};
             {| name := "Fresh dill"; quantity := Some "2 tbsp" |};
             {| name := "Olive oil"; quantity := Some "1 tbsp" |} ];
         steps :=
           [ "Preheat grill to medium-high.";
             "Brush salmon with oil, season, top with lemon and dill.";
             "Grill 4–5 minutes per side." ];
         total_time_minutes := 18;
         servings := 4;
         tags := [ "seafood"; "healthy"; "gluten-free" ] |}.

Definition seed_6 : Gen Recipe :=
  i <- _mk_id ;;
  ret {| id := i;
         title := "Veggie Buddha Bowl";
         description := "Nourishing bowl with roasted veggies, grains, and tahini dressing.";
         image_url := Some "https://images.unsplash.com/photo-1512621776951-a57141f2eefd?q=80&w=1200&auto=format&fit=crop";
         ingredients :=
           [ {| name := "Quinoa"; quantity := Some "1 cup" |};
             {| name := "Sweet potato"; quantity := Some "1, cubed" |};
             {| name := "Chickpeas"; quantity := Some "1 can, drained" |};
             {| name := "Spinach"; quantity := Some "2 cups" |};
             {| name := "Tahini"; quantity := Some "2 tbsp" |} ];
         steps :=
           [ "Roast sweet potato and chickpeas at 400°F (205°C) until crisp.";
             "Cook quinoa per package.";
             "Assemble with spinach and drizzle tahini dressing." ];
         total_time_minutes := 35;
         servings := 2;
         tags := [ "vegan"; "bowl"; "healthy"; "gluten-free" ] |}.

Definition seed_7 : Gen Recipe :=
  i <- _mk_id ;;
  ret {| id := i;
         title := "Garlic Butter Shrimp Pasta";
         description := "Rich and garlicky shrimp tossed with al dente pasta.";
         image_url := Some "https://images.unsplash.com/photo-1473093295043-cdd812d0e601?q=80&w=1200&auto=format&fit=crop";
         ingredients :=
           [ {| name := "Spaghetti"; quantity := Some "12 oz" |};
             {| name := "Shrimp"; quantity := Some "1 lb, peeled" |};
             {| name := "Butter"; quantity := Some "4 tbsp" |};
             {| name := "Garlic"; quantity := Some "4 cloves, minced" |};
             {| name := "Parsley"; quantity := Some "2 tbsp" |} ];
         steps :=
           [ "Cook pasta until al dente.";
             "Sauté garlic in butter, add shrimp and cook until pink.";
             "Toss with pasta and parsley; season to taste." ];
         total_time_minutes := 25;
         servings := 4;
         tags := [ "pasta"; "seafood"; "comfort" ] |}.

Definition seed_8 : Gen Recipe :=
  i <- _mk_id ;;
  ret {| id := i;
         title := "Hearty Beef Chili";
         description := "Slow-simmered chili with beans and spices.";
         image_url := Some "https://images.unsplash.com/photo-1481931715705-36f6e3a82b5b?q=80&w=1200&auto=format&fit=crop";
         ingredients :=
           [ {| name := "Ground beef"; quantity := Some "1 lb" |};
             {| name := "Kidney beans"; quantity := Some "1 can" |};
             {| name := "Tomato sauce"; quantity := Some "1 can" |};
             {| name := "Chili powder"; quantity := Some "2 tbsp" |};
             {| name := "Onion"; quantity := Some "1, diced" |} ];
         steps :=
           [ "Brown beef with onions.";
             "Add beans, sauce, and spices.";
             "Simmer 30–45 minutes, stirring occasionally." ];
         total_time_minutes := 60;
         servings := 6;
         tags := [ "beef"; "stew"; "spicy"; "comfort" ] |}.

Definition seed_9 : Gen Recipe :=
  i <- _mk_id ;;
  ret {| id := i;
         title := "Avocado Toast with Poached Egg";
         description := "Simple and delicious breakfast with creamy avocado and a runny egg.";
         image_url := Some "https://images.unsplash.com/photo-1525351484163-7529414344d8?q=80&w=1200&auto=format&fit=crop";
         ingredients :=
           [ {| name := "Sourdough bread"; quantity := Some "2 slices" |};
             {| name := "Avocado"; quantity := Some "1, mashed" |};
             {| name := "Eggs"; quantity := Some "2, poached" |};
             {| name := "Chili flakes"; quantity := Some "Pinch" |} ];
         steps :=
           [ "Toast bread and spread with mashed avocado.";
             "Top with poached eggs and chili flakes.";
             "Season with salt and pepper." ];
         total_time_minutes := 10;
         servings := 1;
         tags := [ "breakfast"; "quick"; "vegetarian" ] |}.

Definition seed_10 : Gen Recipe :=
  i <- _mk_id ;;
  ret {| id := i;
         title := "Mango Coconut Chia Pudding";
         description := "Tropical chia pudding with mango puree and coconut milk.";
         image_url := Some "https://images.unsplash.com/photo-1511914265872-c40672604a66?q=80&w=1200&auto=format&fit=crop";
         ingredients :=
           [ {| name := "Chia seeds"; quantity := Some "1/4 cup" |};
             {| name := "Coconut milk"; quantity := Some "1 cup" |};
             {| name := "Mango"; quantity := Some "1, pureed" |};
             {| name := "Honey"; quantity := Some "1 tbsp" |} ];
         steps :=
           [ "Mix chia seeds with coconut milk and honey.";
             "Chill for 2 hours until set.";
             "Top with mango puree and serve." ];
         total_time_minutes := 10;
         servings := 2;
         tags := [ "dessert"; "vegan"; "tropical"; "no-bake" ] |}.

Definition seed_11 : Gen Recipe :=
  i <- _mk_id ;;
  ret {| id := i;
         title := "Roasted Herb Chicken";
         description := "Juicy whole roasted chicken with fragrant herbs.";
         image_url := Some "https://images.unsplash.com/photo-1544025162-d76694265947?q=80&w=1200&auto=format&fit=crop";
         ingredients :=
           [ {| name := "Whole chicken"; quantity := Some "1" |};
             {| name := "Butter"; quantity := Some "3 tbsp" |};
             {| name := "Mixed herbs"; quantity := Some "2 tbsp" |};
             {| name := "Lemon"; quantity := Some "1" |} ];
         steps :=
           [ "Preheat oven to 425°F (220°C).";
             "Rub chicken with butter and herbs.";
             "Roast 60–75 minutes until internal temp is 165°F (74°C).";
             "Rest before carving." ];
         total_time_minutes := 90;
         servings := 6;
         tags := [ "chicken"; "roast"; "family" ] |}.

(** The list literal [seed], then one [Recipe] model per entry: the entries
    are well typed, so building the models keeps every field. *)
Definition _seed_recipes : Gen (list Recipe) :=
  seed <- sequence [ seed_1; seed_2; seed_3; seed_4; seed_5; seed_6;
                     seed_7; seed_8; seed_9; seed_10; seed_11 ] ;;
  ret seed.

End Catalog.

(** [{r.id: r for r in recipes}]: entries are inserted from left to right,
    a later recipe replacing an earlier one that has the same id. *)
Definition index_by_id (recipes : list Recipe) : gmap string Recipe :=
  foldl (fun m r => <[ id r := r ]> m) ∅ recipes.

(** The module's globals. *)
Record Globals := {
  RECIPES : list Recipe;
  RECIPES_BY_ID : gmap string Recipe
}.

(** Executing the module's top level: the two assignments. *)
Definition import_module (uuid4 : nat -> string) : Globals :=
  let recipes := fst (_seed_recipes uuid4 0%nat) in
  {| RECIPES := recipes; RECIPES_BY_ID := index_by_id recipes |}.

(* ===================================================================== *)
(** ** The query matcher                                                  *)
(* ===================================================================== *)

(** The [for tag in recipe.tags] loop of [_match_query]. *)
Fixpoint any_tag_contains (ql : string) (tags : list string) : bool :=
  match tags with
  | [] => false
  | tag :: rest =>
      if PyStr.contains ql (PyStr.lower tag) then true
      else any_tag_contains ql rest
  end.

Definition _match_query (recipe : Recipe) (q : string) : bool :=
  let ql := PyStr.lower q in
  if PyStr.contains ql (PyStr.lower (title recipe)) then true
  else any_tag_contains ql (tags recipe).

(* ===================================================================== *)
(** ** The request handlers                                               *)
(* ===================================================================== *)

(** One entry per call of [_match_query]. *)
Inductive Event := MatchQueryCalled (recipe : Recipe) (q : string).

Record World := {
  globals : Globals;
  calls : list Event
}.

Definition App (A : Type) : Type := State World A.

(** Calling [_match_query(recipe, q)]. *)
Definition call_match_query (recipe : Recipe) (q : string) : App bool :=
  fun w => (_match_query recipe q,
            {| globals := globals w;
               calls := calls w ++ [MatchQueryCalled recipe q] |}).

(** [[r for r in recipes if _match_query(r, q)]] *)
Fixpoint matching (recipes : list Recipe) (q : string) : App (list Recipe) :=
  match recipes with
  | [] => ret []
  | r :: rest =>
      keep <- call_match_query r q ;;
      tl <- matching rest q ;;
      ret (if keep then r :: tl else tl)
  end.

(** [if q:] holds for a [str] that is not empty; [None] and the empty string
    take the other branch. *)
Definition list_recipes (q : option string) (page page_size : Z)
  : App PaginatedRecipesResponse :=
  all <- gets (fun w => RECIPES (globals w)) ;;
  items <- match q with
           | Some s => if PyStr.truthy s then matching all s else ret all
           | None => ret all
           end ;;
  let total := PyList.len items in
  let start := (page - 1) * page_size in
  let end_ := start + page_size in
  let paginated := PyList.slice items start end_ in
  ret {| items := paginated;
         total := total;
         page := page;
         page_size := page_size |}.

Definition get_recipe (recipe_id : string) : App (Outcome Recipe) :=
  by_id <- gets (fun w => RECIPES_BY_ID (globals w)) ;;
  let recipe := by_id !! recipe_id in
  match recipe with
  | None => ret (Raises {| status_code := 404; detail := "Recipe not found" |})
  | Some r => ret (Returns r)
  end.

(* ===================================================================== *)
(** ** The vocabulary of the specification                                *)
(* ===================================================================== *)

(** The title of [r], or one of its tags, contains [q] as a
    case-insensitive substring.  No other field is looked at. *)
Definition title_or_tag_contains (q : string) (r : Recipe) : Prop :=
  PyStr.contains_ci (title r) q
  \/ exists tag, In tag (tags r) /\ PyStr.contains_ci tag q.

(** [selection P l sel]: [sel] is made of exactly the elements of [l] that
    satisfy [P], each as often as in [l] and in the order of [l]. *)
Inductive selection {A : Type} (P : A -> Prop) : list A -> list A -> Prop :=
| selection_nil : selection P [] []
| selection_keep x l sel :
    P x -> selection P l sel -> selection P (x :: l) (x :: sel)
| selection_skip x l sel :
    ~ P x -> selection P l sel -> selection P (x :: l) sel.

(** The sequence that [list_recipes] paginates (its local [items]). *)
Definition filtered_catalog (recipes : list Recipe) (q : option string)
  : list Recipe :=
  match q with
  | Some s =>
      if PyStr.truthy s then List.filter (fun r => _match_query r s) recipes
      else recipes
  | None => recipes
  end.

(** The calls of the matcher that one [list_recipes] request makes. *)
Definition matcher_calls (recipes : list Recipe) (q : option string)
  : list Event :=
  match q with
  | Some s =>
      if PyStr.truthy s then map (fun r => MatchQueryCalled r s) recipes
      else []
  | None => []
  end.

(** The requests for the pages [1], [2], ..., [n], one after the other. *)
Definition request_pages (q : option string) (page_size : Z) (n : nat)
  : App (list PaginatedRecipesResponse) :=
  sequence (map (fun k => list_recipes q (Z.of_nat k) page_size) (seq 1 n)).

(** The first eleven identifiers drawn are pairwise distinct. *)
Definition fresh_ids (uuid4 : nat -> string) : Prop :=
  NoDup (map uuid4 (seq 0 11)).

(** The world once the module is imported; [evs] is the history of
    matcher calls made by the requests served so far. *)
Definition serving (uuid4 : nat -> string) (evs : list Event) : World :=
  {| globals := import_module uuid4; calls := evs |}.

(** A response page that has at least one item. *)
Definition nonempty_page (resp : PaginatedRecipesResponse) : bool :=
  match items resp with [] => false | _ :: _ => true end.

(** *** Sample inputs *)

(** A source of identifiers that never repeats: the draw number in two
    decimal digits after a fixed prefix. *)
Definition sample_uuid4 (k : nat) : string :=
  "3f2b8c1e-7d4a-4e9b-8a6c-5d1f0e2b7c"
  ++ String (ascii_of_nat (48 + k / 10))
       (String (ascii_of_nat (48 + k mod 10)) "").

Definition sample_world : World := serving sample_uuid4 [].

(** A recipe that says "pizza" in its title and in a tag. *)
Definition sample_pizza : Recipe :=
  {| id := sample_uuid4 0;
     title := "Classic Margherita Pizza";
     description := "A simple pizza.";
     image_url := None;
     ingredients := [ {| name := "Pizza dough"; quantity := Some "1 ball" |} ];
     steps := [ "Bake." ];
     total_time_minutes := 25;
     servings := 2;
     tags := [ "italian"; "vegetarian"; "pizza"; "quick" ] |}.



(* ===================================================================== *)
(** ** Facts about strings                                                *)
(* ===================================================================== *)

Section StringFacts.

Import PyStr.

Lemma append_nil_l (t : string) : "" ++ t = t.
Proof. reflexivity. Qed.

Lemma append_cons (c : ascii) (s t : string) :
  String c s ++ t = String c (s ++ t).
Proof. reflexivity. Qed.


Lemma startswith_spec (hay needle : string) :
  startswith hay needle = true <-> exists post, hay = needle ++ post.
Proof.
  revert hay. induction needle as [|a needle IH]; intros hay; simpl.
  - split; [intros _; now exists hay | reflexivity].
  - destruct hay as [|b hay].
    + split; [discriminate | intros [post H]; discriminate].
    + destruct (Ascii.eqb a b) eqn:E.
      * apply Ascii.eqb_eq in E. subst b. rewrite IH. split.
        -- intros [post ->]. now exists post.
        -- intros [post H]. rewrite append_cons in H.
           injection H as ->. now exists post.
      * apply Ascii.eqb_neq in E. split; [discriminate|].
        intros [post H]. rewrite append_cons in H.
        injection H as -> _. congruence.
Qed.

(** The [in] operator on strings decides [substring_of]. *)
Lemma contains_spec (needle hay : string) :
  contains needle hay = true <-> substring_of needle hay.
Proof.
  unfold substring_of. induction hay as [|c hay IH].
  - simpl. destruct (startswith "" needle) eqn:E.
    + apply startswith_spec in E as [post E]. split; [intros _|reflexivity].
      exists "", post. exact E.
    + split; [discriminate|]. intros (pre & post & H).
      destruct pre; [|discriminate]. rewrite append_nil_l in H.
      assert (startswith "" needle = true) as E'
        by (apply startswith_spec; now exists post).
      congruence.
  - cbn [contains]. destruct (startswith (String c hay) needle) eqn:E.
    + apply startswith_spec in E as [post E]. split; [intros _|reflexivity].
      exists "", post. exact E.
    + rewrite IH. split.
      * intros (pre & post & ->). now exists (String c pre), post.
      * intros (pre & post & H). destruct pre as [|c' pre].
        -- rewrite append_nil_l in H.
           assert (startswith (String c hay) needle = true) as E'
             by (apply startswith_spec; now exists post).
           congruence.
        -- rewrite append_cons in H. injection H as -> ->.
           now exists pre, post.
Qed.


Lemma lower_char_idem (c : ascii) : lower_char (lower_char c) = lower_char c.
Proof. destruct c as [[] [] [] [] [] [] [] []]; reflexivity. Qed.

Lemma upper_lower_char (c : ascii) :
  is_upper c = true -> upper_char (lower_char c) = c.
Proof. destruct c as [[] [] [] [] [] [] [] []]; intros H; try reflexivity; discriminate H. Qed.

(** Being the same letter up to case is having the same lowercase form. *)
Lemma same_letter_lower (a b : ascii) :
  same_letter a b <-> lower_char a = lower_char b.
Proof.
  unfold same_letter. split.
  - intros [-> | [[_ ->] | [_ ->]]];
      [reflexivity | now rewrite lower_char_idem | now rewrite lower_char_idem].
  - intros H. destruct (is_upper a) eqn:Ea, (is_upper b) eqn:Eb.
    + left. rewrite <- (upper_lower_char a Ea), <- (upper_lower_char b Eb).
      now rewrite H.
    + right; left. split; [reflexivity|].
      rewrite H. unfold lower_char. now rewrite Eb.
    + right; right. split; [reflexivity|].
      rewrite <- H. unfold lower_char. now rewrite Ea.
    + left. unfold lower_char in H. now rewrite Ea, Eb in H.
Qed.

Lemma case_variant_lower (s t : string) :
  case_variant s t <-> lower s = lower t.
Proof.
  split.
  - induction 1 as [|a b s t Hab _ IH]; simpl; [reflexivity|].
    apply same_letter_lower in Hab. now rewrite Hab, IH.
  - revert t. induction s as [|a s IH]; intros [|b t] H; simpl in H;
      try discriminate; [constructor|].
    injection H as Hc Hs. constructor; [now apply same_letter_lower | now apply IH].
Qed.

Lemma lower_append (s t : string) : lower (s ++ t) = lower s ++ lower t.
Proof.
  induction s as [|c s IH]; [reflexivity|].
  rewrite append_cons. simpl. now rewrite append_cons, IH.
Qed.

(** A split of [lower s] comes from a split of [s]. *)
Lemma lower_split (s x y : string) :
  lower s = x ++ y ->
  exists s1 s2, s = s1 ++ s2 /\ lower s1 = x /\ lower s2 = y.
Proof.
  revert s. induction x as [|c x IH]; intros s H.
  - exists "", s. rewrite append_nil_l in H. auto.
  - rewrite append_cons in H. destruct s as [|d s]; simpl in H; [discriminate|].
    injection H as Hc Hs. destruct (IH _ Hs) as (s1 & s2 & -> & H1 & H2).
    exists (String d s1), s2. simpl. now rewrite Hc, H1, H2.
Qed.

(** What the matcher computes on one field is case-insensitive substring
    containment. *)
Lemma contains_lower_spec (hay q : string) :
  contains (lower q) (lower hay) = true <-> contains_ci hay q.
Proof.
  rewrite contains_spec. unfold contains_ci, substring_of. split.
  - intros (pre & post & H).
    apply lower_split in H as (s1 & s2 & -> & <- & H2).
    apply lower_split in H2 as (u & s3 & -> & Hu & <-).
    exists u. split; [now exists s1, s3 | now apply case_variant_lower].
  - intros (u & (pre & post & ->) & Hu). apply case_variant_lower in Hu.
    exists (lower pre), (lower post). now rewrite !lower_append, Hu.
Qed.

End StringFacts.

(* ===================================================================== *)
(** ** Facts about slices                                                 *)
(* ===================================================================== *)

Section SliceFacts.

Context {A : Type}.
Implicit Types l : list A.

(** For a valid page the Python slice is "drop [start], keep [page_size]":
    the clamping of the bounds is the clamping of [take] and [drop]. *)
Lemma slice_page l (page page_size : Z) :
  1 <= page -> 1 <= page_size ->
  PyList.slice l ((page - 1) * page_size) ((page - 1) * page_size + page_size)
  = take (Z.to_nat page_size) (drop (Z.to_nat ((page - 1) * page_size)) l).
Proof.
  intros Hp Hs. unfold PyList.slice, PyList.adjust_index, PyList.len.
  set (start := (page - 1) * page_size).
  set (n := Z.of_nat (length l)).
  assert (0 <= start) as H0 by (subst start; nia).
  destruct (Z.ltb_spec start 0) as [?|_]; [lia|].
  destruct (Z.ltb_spec (start + page_size) 0) as [?|_]; [lia|].
  destruct (Z_le_gt_dec n start) as [Hge|Hlt].
  - rewrite (drop_ge l (Z.to_nat start)) by (subst n; lia).
    rewrite !Z.min_r by lia. rewrite Z.sub_diag.
    rewrite drop_ge by (subst n; lia). now rewrite !take_nil.
  - rewrite (Z.min_l start n) by lia.
    destruct (Z_le_gt_dec (start + page_size) n) as [Hin|Hout].
    + rewrite Z.min_l by lia. f_equal. lia.
    + rewrite Z.min_r by lia.
      rewrite !take_ge; [reflexivity| |];
        rewrite length_drop; subst n; lia.
Qed.

Lemma slice_page_lookup l (page page_size : Z) (i : nat) :
  1 <= page -> 1 <= page_size ->
  PyList.slice l ((page - 1) * page_size) ((page - 1) * page_size + page_size)
    !! i
  = if decide (Z.of_nat i < page_size)
    then l !! (Z.to_nat ((page - 1) * page_size) + i)%nat
    else None.
Proof.
  intros Hp Hs. rewrite slice_page by assumption. case_decide.
  - rewrite lookup_take_lt by lia. now rewrite lookup_drop.
  - apply lookup_take_ge. lia.
Qed.

Lemma slice_page_beyond l (page page_size : Z) :
  1 <= page -> 1 <= page_size ->
  PyList.len l <= (page - 1) * page_size ->
  PyList.slice l ((page - 1) * page_size) ((page - 1) * page_size + page_size)
  = [].
Proof.
  intros Hp Hs Hout. rewrite slice_page by assumption.
  unfold PyList.len in Hout. rewrite drop_ge by lia. apply take_nil.
Qed.

End SliceFacts.

(* ===================================================================== *)
(** ** Facts about the matcher and the handlers                           *)
(* ===================================================================== *)

Section HandlerFacts.

Lemma any_tag_contains_spec (ql : string) (ts : list string) :
  any_tag_contains ql ts = true
  <-> exists tag, In tag ts /\ PyStr.contains ql (PyStr.lower tag) = true.
Proof.
  induction ts as [|t ts IH]; simpl.
  - split; [discriminate | intros (tag & [] & _)].
  - destruct (PyStr.contains ql (PyStr.lower t)) eqn:E.
    + split; [intros _; exists t; auto | reflexivity].
    + rewrite IH. split.
      * intros (tag & Hin & H). exists tag. auto.
      * intros (tag & [<- | Hin] & H); [congruence | exists tag; auto].
Qed.

(** The matcher decides [title_or_tag_contains]. *)
Lemma _match_query_spec (r : Recipe) (q : string) :
  _match_query r q = true <-> title_or_tag_contains q r.
Proof.
  unfold _match_query, title_or_tag_contains.
  destruct (PyStr.contains (PyStr.lower q) (PyStr.lower (title r))) eqn:E.
  - split; [intros _; left; now apply contains_lower_spec | reflexivity].
  - rewrite any_tag_contains_spec. split.
    + intros (tag & Hin & H). right. exists tag.
      split; [assumption | now apply contains_lower_spec].
    + intros [H | (tag & Hin & H)].
      * apply contains_lower_spec in H. congruence.
      * exists tag. split; [assumption | now apply contains_lower_spec].
Qed.


(** A list has one selection only. *)
Lemma selection_unique {A} (P : A -> Prop) (l s1 s2 : list A) :
  selection P l s1 -> selection P l s2 -> s1 = s2.
Proof.
  intros H1. revert s2.
  induction H1 as [|x l s1 Hx _ IH|x l s1 Hx _ IH]; intros s2 H2;
    inversion H2; subst; try contradiction; auto.
  f_equal. now apply IH.
Qed.


Lemma bind_run {S A B} (m : State S A) (k : A -> State S B) (s : S) :
  bind m k s = k (fst (m s)) (snd (m s)).
Proof. unfold bind. now destruct (m s). Qed.

Lemma world_eta (w : World) (evs : list Event) :
  evs = [] -> {| globals := globals w; calls := calls w ++ evs |} = w.
Proof. intros ->. destruct w. simpl. now rewrite app_nil_r. Qed.

(** The comprehension keeps the recipes the matcher accepts and calls the
    matcher once per recipe of the catalog, in order. *)
Lemma matching_run (recipes : list Recipe) (q : string) (w : World) :
  matching recipes q w
  = (List.filter (fun r => _match_query r q) recipes,
     {| globals := globals w;
        calls := calls w ++ map (fun r => MatchQueryCalled r q) recipes |}).
Proof.
  revert w. induction recipes as [|r rest IH]; intros w.
  - simpl. unfold ret. now rewrite world_eta.
  - cbn [matching]. unfold bind, call_match_query. rewrite IH. simpl.
    rewrite <- app_assoc. simpl. unfold ret.
    now destruct (_match_query r q).
Qed.

(** One request, run from any world. *)
Lemma list_recipes_run (q : option string) (page page_size : Z) (w : World) :
  list_recipes q page page_size w
  = ({| items :=
          PyList.slice (filtered_catalog (RECIPES (globals w)) q)
            ((page - 1) * page_size) ((page - 1) * page_size + page_size);
        total := PyList.len (filtered_catalog (RECIPES (globals w)) q);
        page := page;
        page_size := page_size |},
     {| globals := globals w;
        calls := calls w ++ matcher_calls (RECIPES (globals w)) q |}).
Proof.
  unfold list_recipes, bind, gets, filtered_catalog, matcher_calls.
  destruct q as [s|].
  - destruct (PyStr.truthy s).
    + now rewrite matching_run.
    + unfold ret. now rewrite world_eta.
  - unfold ret. now rewrite world_eta.
Qed.

Lemma list_recipes_globals (q : option string) (page page_size : Z) (w : World) :
  globals (snd (list_recipes q page page_size w)) = globals w.
Proof. now rewrite list_recipes_run. Qed.

Lemma filtered_catalog_length (recipes : list Recipe) (q : option string) :
  (length (filtered_catalog recipes q) <= length recipes)%nat.
Proof.
  unfold filtered_catalog. destruct q as [s|]; [|lia].
  destruct (PyStr.truthy s); [apply List.filter_length_le | lia].
Qed.

(** The responses of [request_pages] are those of the single requests,
    all computed from the catalog of the starting world. *)
Lemma sequence_list_recipes (q : option string) (page_size : Z)
    (ks : list nat) (w : World) :
  fst (sequence (map (fun k => list_recipes q (Z.of_nat k) page_size) ks) w)
  = map (fun k => fst (list_recipes q (Z.of_nat k) page_size w)) ks
  /\ globals
       (snd (sequence
               (map (fun k => list_recipes q (Z.of_nat k) page_size) ks) w))
     = globals w.
Proof.
  revert w. induction ks as [|k ks IH]; intros w; [now split|].
  cbn [map sequence]. rewrite !bind_run. unfold ret. cbn [fst snd].
  set (w1 := snd (list_recipes q (Z.of_nat k) page_size w)).
  assert (globals w1 = globals w) as Hw1 by apply list_recipes_globals.
  destruct (IH w1) as [Hfst Hsnd]. rewrite Hfst, Hsnd. split; [|exact Hw1].
  f_equal. apply map_ext. intros j. now rewrite !list_recipes_run, Hw1.
Qed.

End HandlerFacts.

(* ===================================================================== *)
(** ** Facts about the index and the catalog                              *)
(* ===================================================================== *)

Section IndexFacts.

Implicit Types (m : gmap string Recipe) (l : list Recipe).

Local Abbreviation ins := (fun (m : gmap string Recipe) (r : Recipe) => <[ id r := r ]> m).

(** An entry of the index is an entry of the starting map or a recipe of
    the list, filed under its own id. *)
Lemma index_acc_lookup_Some l m (k : string) (r : Recipe) :
  foldl ins m l !! k = Some r ->
  (In r l /\ id r = k) \/ m !! k = Some r.
Proof.
  revert m. induction l as [|x l IH]; intros m H; simpl in H; [now right|].
  apply IH in H as [[Hin Hk] | H]; [left; simpl; auto|].
  destruct (decide (id x = k)) as [<-|Hne].
  - rewrite lookup_insert_eq in H. injection H as <-. left. simpl. auto.
  - rewrite lookup_insert_ne in H by assumption. now right.
Qed.

Lemma index_acc_lookup_other l m (k : string) :
  (forall r, In r l -> id r <> k) -> foldl ins m l !! k = m !! k.
Proof.
  revert m. induction l as [|x l IH]; intros m H; simpl; [reflexivity|].
  rewrite IH by (intros r Hr; apply H; simpl; auto).
  apply lookup_insert_ne. apply H. simpl. auto.
Qed.

Lemma index_acc_lookup_is_Some l m (k : string) :
  is_Some (m !! k) \/ (exists r, In r l /\ id r = k) ->
  is_Some (foldl ins m l !! k).
Proof.
  revert m. induction l as [|x l IH]; intros m H; simpl.
  - destruct H as [H | (r & [] & _)]. exact H.
  - apply IH. destruct (decide (id x = k)) as [<-|Hne].
    + left. rewrite lookup_insert_eq. now eexists.
    + destruct H as [H | (r & [<- | Hr] & Hk)].
      * left. now rewrite lookup_insert_ne.
      * contradiction.
      * right. now exists r.
Qed.

Lemma index_acc_lookup_in l m (r : Recipe) :
  NoDup (map id l) -> In r l -> foldl ins m l !! id r = Some r.
Proof.
  revert m. induction l as [|x l IH]; intros m Hnd Hin; [destruct Hin|].
  simpl in Hnd. apply NoDup_cons in Hnd as [Hx Hnd]. simpl.
  destruct Hin as [<- | Hin]; [|now apply IH].
  rewrite index_acc_lookup_other.
  - apply lookup_insert_eq.
  - intros r Hr Heq. apply Hx. rewrite <- Heq.
    apply list_elem_of_In, in_map, Hr.
Qed.


(** The identifiers of the catalog are the first eleven draws, in order. *)
Lemma catalog_ids (uuid4 : nat -> string) :
  map id (RECIPES (import_module uuid4)) = map uuid4 (seq 0 11).
Proof. reflexivity. Qed.

Lemma catalog_index (uuid4 : nat -> string) :
  RECIPES_BY_ID (import_module uuid4)
  = index_by_id (RECIPES (import_module uuid4)).
Proof. reflexivity. Qed.

(** With fresh identifiers every recipe of the catalog is filed under its
    id. *)
Lemma import_module_lookup_in (uuid4 : nat -> string) (r : Recipe) :
  fresh_ids uuid4 -> In r (RECIPES (import_module uuid4)) ->
  RECIPES_BY_ID (import_module uuid4) !! id r = Some r.
Proof.
  intros Hfresh Hr. rewrite catalog_index. unfold index_by_id.
  apply index_acc_lookup_in; [|exact Hr]. rewrite catalog_ids. exact Hfresh.
Qed.

(** The index holds recipes of the catalog only, each under its id. *)
Lemma import_module_lookup_Some (uuid4 : nat -> string) (k : string) (r : Recipe) :
  RECIPES_BY_ID (import_module uuid4) !! k = Some r ->
  In r (RECIPES (import_module uuid4)) /\ id r = k.
Proof.
  rewrite catalog_index. unfold index_by_id. intros H.
  apply index_acc_lookup_Some in H as [H|H]; [exact H|].
  rewrite lookup_empty in H. discriminate.
Qed.

(** Every id of the catalog is a key of the index. *)
Lemma import_module_lookup_is_Some (uuid4 : nat -> string) (k : string) :
  (exists r, In r (RECIPES (import_module uuid4)) /\ id r = k) ->
  is_Some (RECIPES_BY_ID (import_module uuid4) !! k).
Proof.
  intros H. rewrite catalog_index. unfold index_by_id.
  apply index_acc_lookup_is_Some. now right.
Qed.

End IndexFacts.

Section ChunkFacts.

Context {A : Type}.

(** Consecutive chunks of [s] elements make up a prefix. *)
Lemma concat_chunks (l : list A) (s n : nat) :
  concat (map (fun k => take s (drop ((k - 1) * s) l)) (seq 1 n))
  = take (n * s) l.
Proof.
  induction n as [|n IH]; [reflexivity|].
  rewrite seq_S, map_app, concat_app, IH. simpl.
  rewrite app_nil_r, Nat.sub_0_r, take_take_drop. f_equal. lia.
Qed.

Lemma sum_lengths_concat (ls : list (list A)) :
  sum_list (map length ls) = length (concat ls).
Proof.
  induction ls as [|x ls IH]; simpl; [reflexivity|].
  now rewrite length_app, IH.
Qed.

End ChunkFacts.

(* ===================================================================== *)
(** ** The query matcher and the List operation                           *)
(* ===================================================================== *)



(** The description and the ingredients are not searched: on the seed
    catalog "chickpeas" names an ingredient of the Veggie Buddha Bowl and
    "tahini" occurs in its description, and neither term selects it. *)
Example ingredients_and_description_not_searched (uuid4 : nat -> string) :
  total (fst (list_recipes (Some "chickpeas") 1 10 (serving uuid4 []))) = 0
  /\ total (fst (list_recipes (Some "tahini") 1 10 (serving uuid4 []))) = 0
  /\ map title
       (items (fst (list_recipes (Some "BOWL") 1 10 (serving uuid4 []))))
     = ["Veggie Buddha Bowl"].
Proof. rewrite !list_recipes_run. repeat split; reflexivity. Qed.

(** C2.  For a page [pg >= 1] and a page size [sz] in [1 .. 100], the
    response holds the slice of the filtered sequence that starts at
    [(pg - 1) * sz] and has at most [sz] elements, the bounds
    being clamped to the sequence; a page beyond the data is the empty list;
    and [total] is the length of the filtered sequence, which is at most the
    size of the catalog. *)
Theorem list_recipes_paginates
    (q : option string) (pg sz : Z) (w : World) :
  1 <= pg -> 1 <= sz <= 100 ->
  let resp := fst (list_recipes q pg sz w) in
  let sel := filtered_catalog (RECIPES (globals w)) q in
  let start := (pg - 1) * sz in
  items resp = PyList.slice sel start (start + sz)
  /\ items resp = take (Z.to_nat sz) (drop (Z.to_nat start) sel)
  /\ (forall i : nat,
        items resp !! i
        = if decide (Z.of_nat i < sz)
          then sel !! (Z.to_nat start + i)%nat else None)
  /\ (PyList.len sel <= start -> items resp = [])
  /\ total resp = PyList.len sel
  /\ total resp <= PyList.len (RECIPES (globals w))
  /\ page resp = pg /\ page_size resp = sz.
Proof.
  intros Hp [Hs _]. cbv zeta. rewrite list_recipes_run.
  cbn [fst items total page page_size].
  repeat split.
  - now apply slice_page.
  - intros i. now apply slice_page_lookup.
  - intros Hout. now apply slice_page_beyond.
  - unfold PyList.len. pose proof (filtered_catalog_length (RECIPES (globals w)) q).
    lia.
Qed.

Lemma list_recipes_paginates_witness :
  let resp := fst (list_recipes None 2 5 sample_world) in
  let sel := filtered_catalog (RECIPES (globals sample_world)) None in
  let start := (2 - 1) * 5 in
  items resp = PyList.slice sel start (start + 5)
  /\ items resp = take (Z.to_nat 5) (drop (Z.to_nat start) sel)
  /\ (forall i : nat,
        items resp !! i
        = if decide (Z.of_nat i < 5)
          then sel !! (Z.to_nat start + i)%nat else None)
  /\ (PyList.len sel <= start -> items resp = [])
  /\ total resp = PyList.len sel
  /\ total resp <= PyList.len (RECIPES (globals sample_world))
  /\ page resp = 2 /\ page_size resp = 5.
Proof.
  apply (list_recipes_paginates None 2 5 sample_world); lia.
Defined.

(** C5.  With the term absent or empty the List operation does not filter:
    both requests give the same response, which is the requested slice of
    the whole catalog with [total] the size of the catalog, and the matcher
    is not called (the world, with its record of matcher calls, is left as
    it was). *)
Theorem list_recipes_without_term (pg sz : Z) (w : World) :
  list_recipes (Some "") pg sz w = list_recipes None pg sz w
  /\ list_recipes None pg sz w
     = ({| items := PyList.slice (RECIPES (globals w))
                      ((pg - 1) * sz) ((pg - 1) * sz + sz);
           total := PyList.len (RECIPES (globals w));
           page := pg;
           page_size := sz |}, w)
  /\ calls (snd (list_recipes (Some "") pg sz w)) = calls w
  /\ calls (snd (list_recipes None pg sz w)) = calls w.
Proof.
  assert (list_recipes None pg sz w
          = ({| items := PyList.slice (RECIPES (globals w))
                           ((pg - 1) * sz) ((pg - 1) * sz + sz);
                total := PyList.len (RECIPES (globals w));
                page := pg;
                page_size := sz |}, w)) as Hnone.
  { rewrite list_recipes_run. simpl. now rewrite world_eta. }
  assert (list_recipes (Some "") pg sz w = list_recipes None pg sz w) as Hsame
    by reflexivity.
  rewrite Hsame, Hnone. auto.
Qed.



(* ===================================================================== *)
(** ** Walking through the pages                                          *)
(* ===================================================================== *)

Lemma page_items_chunk (q : option string) (sz : Z) (k : nat) (w : World) :
  1 <= sz -> (1 <= k)%nat ->
  items (fst (list_recipes q (Z.of_nat k) sz w))
  = take (Z.to_nat sz)
      (drop ((k - 1) * Z.to_nat sz)
         (filtered_catalog (RECIPES (globals w)) q)).
Proof.
  intros Hs Hk. rewrite list_recipes_run. cbn [fst items].
  rewrite slice_page by lia. do 2 f_equal.
  rewrite Z2Nat.inj_mul by lia. f_equal. lia.
Qed.

Lemma request_pages_prefix (q : option string) (sz : Z) (n : nat) (w : World) :
  1 <= sz ->
  concat (map items (fst (request_pages q sz n w)))
  = take (n * Z.to_nat sz) (filtered_catalog (RECIPES (globals w)) q).
Proof.
  intros Hs. unfold request_pages.
  destruct (sequence_list_recipes q sz (seq 1 n) w) as [-> _].
  rewrite map_map, <- concat_chunks. f_equal.
  apply map_ext_in. intros k Hk. apply in_seq in Hk.
  apply page_items_chunk; lia.
Qed.

Lemma sum_nonempty_pages (resps : list PaginatedRecipesResponse) :
  sum_list (map (fun r => length (items r)) (List.filter nonempty_page resps))
  = sum_list (map (fun r => length (items r)) resps).
Proof.
  induction resps as [|r resps IH]; [reflexivity|].
  simpl. unfold nonempty_page at 1.
  destruct (items r) eqn:E; simpl; rewrite IH; [reflexivity|].
  now rewrite E.
Qed.

(** C7.  For a page size [sz] in [1 .. 100], the items of the pages
    [1, 2, ..., n] requested in this order, put end to end, are the first
    [n * sz] items of the filtered set; once [n * sz] reaches its size [N]
    they are the filtered set itself, each item once and in order, the item
    counts of the non-empty pages add up to [N], and every later page is
    empty. *)
Theorem pages_cover_filtered_set
    (q : option string) (sz : Z) (n : nat) (w : World) :
  1 <= sz <= 100 ->
  PyList.len (filtered_catalog (RECIPES (globals w)) q) <= Z.of_nat n * sz ->
  let sel := filtered_catalog (RECIPES (globals w)) q in
  let resps := fst (request_pages q sz n w) in
  (forall m : nat,
     concat (map items (fst (request_pages q sz m w)))
     = take (m * Z.to_nat sz) sel)
  /\ concat (map items resps) = sel
  /\ sum_list (map (fun r => length (items r))
                 (List.filter nonempty_page resps))
     = length sel
  /\ (forall k : nat,
        (n < k)%nat ->
        items (fst (list_recipes q (Z.of_nat k) sz
                      (snd (request_pages q sz n w)))) = []).
Proof.
  intros [Hs _] Hn. cbv zeta.
  assert (concat (map items (fst (request_pages q sz n w)))
          = filtered_catalog (RECIPES (globals w)) q) as Hall.
  { rewrite request_pages_prefix by assumption. apply take_ge.
    unfold PyList.len in Hn. nia. }
  split; [|split; [|split]].
  - intros m. now apply request_pages_prefix.
  - exact Hall.
  - rewrite sum_nonempty_pages.
    transitivity (length (concat (map items (fst (request_pages q sz n w)))));
      [|now rewrite Hall].
    now rewrite <- sum_lengths_concat, map_map.
  - intros k Hk. rewrite page_items_chunk by lia.
    unfold request_pages.
    destruct (sequence_list_recipes q sz (seq 1 n) w) as [_ ->].
    rewrite drop_ge; [apply take_nil|]. unfold PyList.len in Hn. nia.
Qed.

Lemma pages_cover_filtered_set_witness :
  let sel := filtered_catalog (RECIPES (globals sample_world)) None in
  let resps := fst (request_pages None 5 3 sample_world) in
  (forall m : nat,
     concat (map items (fst (request_pages None 5 m sample_world)))
     = take (m * Z.to_nat 5) sel)
  /\ concat (map items resps) = sel
  /\ sum_list (map (fun r => length (items r))
                 (List.filter nonempty_page resps))
     = length sel
  /\ (forall k : nat,
        (3 < k)%nat ->
        items (fst (list_recipes None (Z.of_nat k) 5
                      (snd (request_pages None 5 3 sample_world)))) = []).
Proof.
  apply (pages_cover_filtered_set None 5 3 sample_world); [lia|].
  vm_compute. discriminate.
Defined.

(** C8.  The List operation is deterministic and leaves the catalog alone:
    the response is a function of the catalog and of the inputs, so two
    requests with the same term, page and page size made in worlds that
    hold the same catalog get the same response; a request does not change
    the globals; hence the same request made twice in a row is answered
    twice the same. *)
Theorem list_recipes_deterministic
    (q : option string) (pg sz : Z) (w w' : World) :
  globals w' = globals w ->
  fst (list_recipes q pg sz w') = fst (list_recipes q pg sz w)
  /\ globals (snd (list_recipes q pg sz w)) = globals w
  /\ fst (list_recipes q pg sz (snd (list_recipes q pg sz w)))
     = fst (list_recipes q pg sz w)
  /\ globals (snd (list_recipes q pg sz (snd (list_recipes q pg sz w))))
     = globals w.
Proof.
  intros Hg. rewrite !list_recipes_run. cbn [fst snd globals].
  now rewrite Hg.
Qed.

Lemma list_recipes_deterministic_witness :
  fst (list_recipes (Some "chicken") 1 10
         (snd (list_recipes (Some "soup") 1 10 sample_world)))
  = fst (list_recipes (Some "chicken") 1 10 sample_world)
  /\ globals (snd (list_recipes (Some "chicken") 1 10 sample_world))
     = globals sample_world
  /\ fst (list_recipes (Some "chicken") 1 10
            (snd (list_recipes (Some "chicken") 1 10 sample_world)))
     = fst (list_recipes (Some "chicken") 1 10 sample_world)
  /\ globals (snd (list_recipes (Some "chicken") 1 10
                     (snd (list_recipes (Some "chicken") 1 10 sample_world))))
     = globals sample_world.
Proof.
  apply (list_recipes_deterministic (Some "chicken") 1 10 sample_world
           (snd (list_recipes (Some "soup") 1 10 sample_world))).
  reflexivity.
Defined.

(* ===================================================================== *)
(** ** The empty term                                                     *)
(* ===================================================================== *)



(* ===================================================================== *)
(** ** The identifiers and Get-by-id                                      *)
(* ===================================================================== *)



(** C3.  In a world that serves the imported module, Get-by-id has two
    outcomes only: it returns a recipe of the catalog whose id is the
    requested one, or it raises the 404 "Recipe not found"; it raises
    exactly when no recipe of the catalog has the requested id; and, the
    identifiers drawn being fresh, it returns [r] for the id of every
    recipe [r] of the catalog.  The world is left as it was. *)
Theorem get_recipe_by_id
    (uuid4 : nat -> string) (evs : list Event) (rid : string) :
  let w := serving uuid4 evs in
  let catalog := RECIPES (globals w) in
  let not_found :=
    Raises {| status_code := 404; detail := "Recipe not found" |} in
  ((exists r, In r catalog /\ id r = rid
              /\ get_recipe rid w = (Returns r, w))
   \/ get_recipe rid w = (not_found, w))
  /\ (get_recipe rid w = (not_found, w)
      <-> ~ exists r, In r catalog /\ id r = rid)
  /\ (fresh_ids uuid4 ->
      forall r, In r catalog -> get_recipe (id r) w = (Returns r, w)).
Proof.
  cbv zeta. cbn [serving globals].
  unfold get_recipe, bind, gets. cbn [serving globals].
  split; [|split].
  - destruct (RECIPES_BY_ID (import_module uuid4) !! rid) as [r|] eqn:E.
    + apply import_module_lookup_Some in E as [Hr Hid]. left. now exists r.
    + now right.
  - destruct (RECIPES_BY_ID (import_module uuid4) !! rid) as [r|] eqn:E.
    + apply import_module_lookup_Some in E as [Hr Hid].
      split; [discriminate|]. intros Hno. exfalso. apply Hno. now exists r.
    + split; [|reflexivity]. intros _ Hex.
      apply import_module_lookup_is_Some in Hex as [r' Hr'].
      rewrite Hr' in E. discriminate.
  - intros Hfresh r Hr.
    now rewrite (import_module_lookup_in uuid4 r Hfresh Hr).
Qed.

Lemma get_recipe_by_id_witness :
  let w := serving sample_uuid4 [] in
  let catalog := RECIPES (globals w) in
  let not_found :=
    Raises {| status_code := 404; detail := "Recipe not found" |} in
  fresh_ids sample_uuid4
  /\ ((exists r, In r catalog /\ id r = sample_uuid4 3
                 /\ get_recipe (sample_uuid4 3) w = (Returns r, w))
      \/ get_recipe (sample_uuid4 3) w = (not_found, w))
  /\ (get_recipe (sample_uuid4 3) w = (not_found, w)
      <-> ~ exists r, In r catalog /\ id r = sample_uuid4 3)
  /\ (forall r, In r catalog -> get_recipe (id r) w = (Returns r, w)).
Proof.
  assert (fresh_ids sample_uuid4) as Hfresh
    by (unfold fresh_ids; apply (bool_decide_unpack _); vm_compute; exact I).
  split; [exact Hfresh|].
  destruct (get_recipe_by_id sample_uuid4 [] (sample_uuid4 3))
    as (Htwo & Hraise & Hall).
  split; [exact Htwo|]. split; [exact Hraise|]. exact (Hall Hfresh).
Defined.

(* ===================================================================== *)
(** ** The seed catalog                                                   *)
(* ===================================================================== *)

(** C9.  On the seed catalog of eleven recipes: the term "chicken" with page
    1 and page size 10 returns the second and the eleventh recipe, "Spicy
    Thai Basil Chicken" and "Roasted Herb Chicken", which are the recipes of
    the catalog whose title or tags contain "chicken" up to case, with total
    2; no term with page 2 and page size 5 returns the sixth to the tenth
    recipe, five items, with total 11. *)
Theorem seed_catalog_scenarios (uuid4 : nat -> string) (evs : list Event) :
  let w := serving uuid4 evs in
  let catalog := RECIPES (globals w) in
  let chicken := fst (list_recipes (Some "chicken") 1 10 w) in
  let second := fst (list_recipes None 2 5 w) in
  length catalog = 11%nat
  /\ map title (items chicken)
     = ["Spicy Thai Basil Chicken"; "Roasted Herb Chicken"]
  /\ (exists r2 r11,
        catalog !! 1%nat = Some r2 /\ catalog !! 10%nat = Some r11
        /\ items chicken = [r2; r11])
  /\ (forall r, In r (items chicken)
                <-> In r catalog /\ title_or_tag_contains "chicken" r)
  /\ total chicken = 2
  /\ items second = take 5 (drop 5 catalog)
  /\ length (items second) = 5%nat
  /\ map title (items second)
     = ["Veggie Buddha Bowl"; "Garlic Butter Shrimp Pasta";
        "Hearty Beef Chili"; "Avocado Toast with Poached Egg";
        "Mango Coconut Chia Pudding"]
  /\ total second = 11
  /\ page second = 2 /\ page_size second = 5.
Proof.
  cbv zeta. rewrite !list_recipes_run. cbn [fst items total page page_size].
  split; [reflexivity|]. split; [reflexivity|]. split; [|split].
  - eexists _, _. repeat split; reflexivity.
  - intros r.
    assert (PyList.slice
              (filtered_catalog (RECIPES (globals (serving uuid4 evs)))
                 (Some "chicken")) ((1 - 1) * 10) ((1 - 1) * 10 + 10)
            = List.filter (fun x => _match_query x "chicken")
                (RECIPES (globals (serving uuid4 evs)))) as -> by reflexivity.
    rewrite filter_In. now rewrite _match_query_spec.
  - repeat split; reflexivity.
Qed.

(* ===================================================================== *)
(** ** More about the matcher                                             *)
(* ===================================================================== *)

Section MatcherFacts.

Import PyStr.










End MatcherFacts.









(* ===================================================================== *)
(** ** More about pagination                                              *)
(* ===================================================================== *)

Lemma slice_sublist {A} (l : list A) (start stop : Z) :
  PyList.slice l start stop `sublist_of` l.
Proof.
  unfold PyList.slice. etransitivity; [apply sublist_take | apply sublist_drop].
Qed.

Lemma filtered_catalog_sublist (recipes : list Recipe) (q : option string) :
  filtered_catalog recipes q `sublist_of` recipes.
Proof.
  unfold filtered_catalog. destruct q as [s|]; [|reflexivity].
  destruct (PyStr.truthy s); [|reflexivity].
  induction recipes as [|x l IH]; simpl; [constructor|].
  destruct (_match_query x s); now constructor.
Qed.

Lemma page_items_length (q : option string) (pg sz : Z) (w : World) :
  1 <= pg -> 1 <= sz ->
  Z.of_nat (length (items (fst (list_recipes q pg sz w))))
  = Z.min sz
      (Z.max 0 (PyList.len (filtered_catalog (RECIPES (globals w)) q)
                - (pg - 1) * sz)).
Proof.
  intros Hp Hs. rewrite list_recipes_run. cbn [fst items].
  rewrite slice_page by assumption. rewrite length_take, length_drop.
  unfold PyList.len. nia.
Qed.

(** X5.  For a page [pg >= 1] and a page size [sz] in [1 .. 100], the
    number of items returned is [min sz (max 0 (total - (pg - 1) * sz))]:
    never more than [sz], hence never more than 100; exactly [sz] on every
    page that the data fills ([pg * sz <= total]); and what is left of the
    data on the page where it ends. *)
Theorem page_item_count (q : option string) (pg sz : Z) (w : World) :
  1 <= pg -> 1 <= sz <= 100 ->
  let resp := fst (list_recipes q pg sz w) in
  let n := Z.of_nat (length (items resp)) in
  n = Z.min sz (Z.max 0 (total resp - (pg - 1) * sz))
  /\ n <= sz /\ n <= 100
  /\ (pg * sz <= total resp -> n = sz)
  /\ ((pg - 1) * sz <= total resp <= pg * sz ->
      n = total resp - (pg - 1) * sz).
Proof.
  intros Hp [Hs Hmax]. cbv zeta.
  pose proof (page_items_length q pg sz w Hp Hs) as Hlen.
  assert (total (fst (list_recipes q pg sz w))
          = PyList.len (filtered_catalog (RECIPES (globals w)) q)) as Ht
    by now rewrite list_recipes_run.
  rewrite Ht, Hlen. repeat split; lia.
Qed.

Lemma page_item_count_witness :
  let resp := fst (list_recipes None 3 5 sample_world) in
  let n := Z.of_nat (length (items resp)) in
  n = Z.min 5 (Z.max 0 (total resp - (3 - 1) * 5))
  /\ n <= 5 /\ n <= 100
  /\ (3 * 5 <= total resp -> n = 5)
  /\ ((3 - 1) * 5 <= total resp <= 3 * 5 ->
      n = total resp - (3 - 1) * 5).
Proof.
  apply (page_item_count None 3 5 sample_world); lia.
Defined.

(** X6.  [total] does not depend on the page requested, and it tells how
    many pages there are: for a page size [sz] in [1 .. 100] the page
    [pg >= 1] has an item exactly when [pg <= ceil(total / sz)], computed as
    [(total + sz - 1) / sz]. *)
Theorem pages_with_items
    (q : option string) (pg sz pg' sz' : Z) (w : World) :
  1 <= pg -> 1 <= sz <= 100 ->
  let resp := fst (list_recipes q pg sz w) in
  total resp = total (fst (list_recipes q pg' sz' w))
  /\ (items resp <> [] <-> (pg - 1) * sz < total resp)
  /\ (items resp <> [] <-> pg <= (total resp + sz - 1) / sz).
Proof.
  intros Hp [Hs _]. cbv zeta.
  pose proof (page_items_length q pg sz w Hp Hs) as Hlen.
  assert (forall a b, total (fst (list_recipes q a b w))
                      = PyList.len (filtered_catalog (RECIPES (globals w)) q))
    as Ht by (intros a b; now rewrite list_recipes_run).
  rewrite !Ht.
  set (n := PyList.len (filtered_catalog (RECIPES (globals w)) q)) in *.
  assert (items (fst (list_recipes q pg sz w)) <> [] <-> (pg - 1) * sz < n)
    as Hne.
  { destruct (items (fst (list_recipes q pg sz w))) as [|x l].
    - simpl in Hlen. split; [congruence | lia].
    - simpl length in Hlen. split; [lia | discriminate]. }
  split; [reflexivity|]. split; [exact Hne|].
  rewrite Hne. split.
  - intros H. apply Z.div_le_lower_bound; lia.
  - intros H.
    destruct (Z_lt_le_dec ((pg - 1) * sz) n) as [Hlt|Hge]; [exact Hlt|].
    exfalso. assert ((n + sz - 1) / sz < pg); [|lia].
    apply Z.div_lt_upper_bound; lia.
Qed.

Lemma pages_with_items_witness :
  let resp := fst (list_recipes None 3 5 sample_world) in
  total resp = total (fst (list_recipes None 1 10 sample_world))
  /\ (items resp <> [] <-> (3 - 1) * 5 < total resp)
  /\ (items resp <> [] <-> 3 <= (total resp + 5 - 1) / 5).
Proof.
  apply (pages_with_items None 3 5 1 10 sample_world); lia.
Defined.

(** X7.  Whatever the term, the page and the page size, also outside the
    ranges the service accepts, the items of a response are recipes of the
    catalog in catalog order: the response is a subsequence of the catalog,
    no recipe appears that the catalog does not hold, and under a non-empty
    term every item is accepted by the matcher. *)
Theorem response_items_from_catalog
    (q : option string) (pg sz : Z) (w : World) :
  let resp := fst (list_recipes q pg sz w) in
  items resp `sublist_of` RECIPES (globals w)
  /\ (forall r, In r (items resp) -> In r (RECIPES (globals w)))
  /\ (Z.of_nat (length (items resp)) <= total resp
      <= PyList.len (RECIPES (globals w)))
  /\ (forall s r, q = Some s -> s <> "" ->
                  In r (items resp) -> _match_query r s = true).
Proof.
  cbv zeta. rewrite list_recipes_run. cbn [fst items total].
  set (sel := filtered_catalog (RECIPES (globals w)) q).
  assert (PyList.slice sel ((pg - 1) * sz) ((pg - 1) * sz + sz) `sublist_of` sel)
    as H1 by apply slice_sublist.
  assert (sel `sublist_of` RECIPES (globals w)) as H2
    by apply filtered_catalog_sublist.
  assert (PyList.slice sel ((pg - 1) * sz) ((pg - 1) * sz + sz)
          `sublist_of` RECIPES (globals w)) as H3
    by (etransitivity; [exact H1 | exact H2]).
  split; [exact H3|]. split; [|split].
  - intros r Hr. apply list_elem_of_In. apply list_elem_of_In in Hr.
    exact (elem_of_sublist _ _ _ Hr H3).
  - unfold PyList.len. apply sublist_length in H1, H2. lia.
  - intros s r -> Hs Hr. apply list_elem_of_In in Hr.
    apply (fun H => elem_of_sublist _ _ _ H H1), list_elem_of_In in Hr.
    subst sel. unfold filtered_catalog in Hr.
    destruct s; [congruence|]. cbn [PyStr.truthy] in Hr.
    now apply filter_In in Hr.
Qed.

Lemma response_items_from_catalog_witness :
  let resp := fst (list_recipes (Some "soup") (-1) 5 sample_world) in
  items resp `sublist_of` RECIPES (globals sample_world)
  /\ (forall r, In r (items resp) -> In r (RECIPES (globals sample_world)))
  /\ (Z.of_nat (length (items resp)) <= total resp
      <= PyList.len (RECIPES (globals sample_world)))
  /\ (forall s r, Some "soup" = Some s -> s <> "" ->
                  In r (items resp) -> _match_query r s = true).
Proof.
  exact (response_items_from_catalog (Some "soup") (-1) 5 sample_world).
Defined.

(* ===================================================================== *)
(** ** More about the index and Get-by-id                                 *)
(* ===================================================================== *)

Lemma get_recipe_run (rid : string) (w : World) :
  get_recipe rid w
  = (match RECIPES_BY_ID (globals w) !! rid with
     | Some r => Returns r
     | None => Raises {| status_code := 404; detail := "Recipe not found" |}
     end, w).
Proof.
  unfold get_recipe, bind, gets.
  now destruct (RECIPES_BY_ID (globals w) !! rid).
Qed.

(** X8.  List and Get-by-id agree: the identifiers drawn being fresh, every
    recipe that a List response shows, for any term, page and page size, is
    returned by Get-by-id for its id, also when the detail request comes
    after the list request. *)
Theorem listed_recipe_can_be_fetched
    (uuid4 : nat -> string) (evs : list Event)
    (q : option string) (pg sz : Z) (r : Recipe) :
  fresh_ids uuid4 ->
  In r (items (fst (list_recipes q pg sz (serving uuid4 evs)))) ->
  get_recipe (id r) (snd (list_recipes q pg sz (serving uuid4 evs)))
  = (Returns r, snd (list_recipes q pg sz (serving uuid4 evs)))
  /\ get_recipe (id r) (serving uuid4 evs) = (Returns r, serving uuid4 evs).
Proof.
  intros Hfresh Hr.
  assert (In r (RECIPES (import_module uuid4))) as Hcat.
  { rewrite list_recipes_run in Hr. cbn [fst items serving globals] in Hr.
    apply list_elem_of_In. apply list_elem_of_In in Hr.
    eapply elem_of_sublist; [exact Hr|].
    etransitivity; [apply slice_sublist | apply filtered_catalog_sublist]. }
  rewrite !get_recipe_run, list_recipes_globals. cbn [serving globals].
  now rewrite (import_module_lookup_in uuid4 r Hfresh Hcat).
Qed.

Lemma listed_recipe_can_be_fetched_witness :
  get_recipe (sample_uuid4 3)
    (snd (list_recipes (Some "soup") 1 10 (serving sample_uuid4 [])))
  = (Returns (nth 3 (RECIPES (import_module sample_uuid4)) sample_pizza),
     snd (list_recipes (Some "soup") 1 10 (serving sample_uuid4 [])))
  /\ get_recipe (sample_uuid4 3) (serving sample_uuid4 [])
     = (Returns (nth 3 (RECIPES (import_module sample_uuid4)) sample_pizza),
        serving sample_uuid4 []).
Proof.
  apply (listed_recipe_can_be_fetched sample_uuid4 [] (Some "soup") 1 10
           (nth 3 (RECIPES (import_module sample_uuid4)) sample_pizza)).
  - unfold fresh_ids. apply (bool_decide_unpack _). vm_compute. exact I.
  - left. reflexivity.
Defined.



Lemma index_by_id_snoc (l : list Recipe) (x : Recipe) :
  index_by_id (l ++ [x]) = <[ id x := x ]> (index_by_id l).
Proof. unfold index_by_id. now rewrite foldl_app. Qed.

Lemma index_by_id_size_le (l : list Recipe) :
  (size (index_by_id l) <= length l)%nat.
Proof.
  induction l as [|x l IH] using rev_ind;
    [unfold index_by_id; simpl; now rewrite map_size_empty|].
  rewrite index_by_id_snoc, length_app, map_size_insert. simpl.
  destruct (index_by_id l !! id x); simpl; lia.
Qed.

(** X10.  The index never has more entries than the list has recipes, and
    it has as many exactly when the ids of the list are pairwise distinct:
    a smaller index means that two recipes share an id. *)
Theorem index_by_id_size (l : list Recipe) :
  (size (index_by_id l) <= length l)%nat
  /\ (size (index_by_id l) = length l <-> NoDup (map id l)).
Proof.
  split; [apply index_by_id_size_le|].
  induction l as [|x l IH] using rev_ind.
  - split; [constructor | unfold index_by_id; simpl; now rewrite map_size_empty].
  - rewrite index_by_id_snoc, length_app, map_size_insert, map_app.
    cbn [map length].
    rewrite NoDup_app. pose proof (index_by_id_size_le l) as Hle.
    destruct (index_by_id l !! id x) as [y|] eqn:E; simpl.
    + split; [lia|]. intros (_ & Hdisj & _). exfalso.
      unfold index_by_id in E.
      apply index_acc_lookup_Some in E as [[Hy Hid]|E];
        [|rewrite lookup_empty in E; discriminate].
      apply (Hdisj (id x)); [|now left].
      rewrite <- Hid. apply list_elem_of_In, in_map, Hy.
    + split.
      * intros Hs. assert (size (index_by_id l) = length l) as Hl by lia.
        apply IH in Hl. split; [exact Hl|]. split; [|apply NoDup_singleton].
        intros k Hk Hx. apply list_elem_of_singleton in Hx. subst k.
        apply list_elem_of_In, in_map_iff in Hk as (y & Hid & Hy).
        assert (is_Some (index_by_id l !! id x)) as [z Hz]
          by (apply index_acc_lookup_is_Some; right; now exists y).
        rewrite Hz in E. discriminate.
      * intros (Hl & _ & _). apply IH in Hl. lia.
Qed.
